(** * Fractal-Gallery: the escape-time engine, embedded and verified

    A shallow embedding of the numeric core of the repository:

    - [src/mandelbrot.py]: [mandelbrot_point], [mandelbrot_set],
      [MandelbrotGenerator.calculate_bounds];
    - [src/julia.py]: [julia_point], [julia_set],
      [JuliaGenerator.famous_julia_sets], [JuliaGenerator.parse_julia_c],
      [JuliaGenerator.calculate_bounds].

    Number model.  A Python [int] is a [Z].  In the kernels, the grid
    generators and the viewport mapper a Python [float] is a real number
    of [R]: the arithmetic is exact, so rounding, overflow to infinity
    and NaN are outside the model (the JIT decorators of the source,
    [fastmath] included, only change how the same arithmetic is
    executed).  The constant parser can read the literals [inf] and
    [nan]; its floats are the values of [pyfloat], a real number or one
    of these.  A cell of the [np.int32] result array is a [Z] reduced to
    the signed 32-bit range when it is stored.  Exceptions are values of
    an error monad. *)

From Stdlib Require Import Reals ZArith List String Ascii Bool.
From Stdlib Require Import Decimal DecimalPos DecimalString.
From Stdlib Require Import Lia Lra Psatz.
Import ListNotations.

Open Scope Z_scope.

(** ** Exceptions and the error monad *)

Inductive exception : Type :=
| ValueError (msg : string)
| ZeroDivisionError
| IndexError
| KeyError (key : string).

Inductive outcome (A : Type) : Type :=
| Ok (a : A)
| Raise (e : exception).

Arguments Ok {A} a.
Arguments Raise {A} e.

Definition bind {A B : Type} (m : outcome A) (k : A -> outcome B) : outcome B :=
  match m with
  | Ok a => k a
  | Raise e => Raise e
  end.

Notation "x <- m ;; k" := (bind m (fun x => k))
  (at level 61, m at next level, right associativity).

(** ** Loops

    [range n] is Python's [range(n)]: empty when [n <= 0]. *)

Definition range (n : Z) : list Z := map Z.of_nat (seq 0 (Z.to_nat n)).

(** A loop body either leaves the enclosing function with a value
    ([return v]) or falls through to the next iteration with the
    updated local state. *)

Inductive flow (V S : Type) : Type :=
| Return (v : V)
| Continue (s : S).

Arguments Return {V S} v.
Arguments Continue {V S} s.

Fixpoint for_each {V S : Type} (items : list Z) (body : Z -> S -> flow V S)
    (s : S) : flow V S :=
  match items with
  | [] => Continue s
  | i :: rest =>
      match body i s with
      | Return v => Return v
      | Continue s' => for_each rest body s'
      end
  end.

(** A loop whose body may raise: the first exception ends the loop. *)

Fixpoint for_m {S : Type} (items : list Z) (body : Z -> S -> outcome S)
    (s : S) : outcome S :=
  match items with
  | [] => Ok s
  | i :: rest => s' <- body i s ;; for_m rest body s'
  end.

(** ** Complex numbers *)

Record complex : Type := Complex { re : R; im : R }.

Definition Cadd (a b : complex) : complex :=
  Complex (re a + re b) (im a + im b).

Definition Cmul (a b : complex) : complex :=
  Complex (re a * re b - im a * im b) (re a * im b + im a * re b).

(** [abs(z)]: the modulus. *)
Definition Cabs (z : complex) : R := sqrt (re z * re z + im z * im z).

(** The comparison [a > b] of two floats, as a boolean. *)
Definition float_gt (a b : R) : bool :=
  if Rgt_dec a b then true else false.

Declare Scope complex_scope.
Delimit Scope complex_scope with C.
Bind Scope complex_scope with complex.
Infix "+" := Cadd : complex_scope.
Infix "*" := Cmul : complex_scope.

(** ** The escape-time kernels *)

(** [mandelbrot.py], [mandelbrot_point]:
<<
    z = 0.0 + 0.0j
    for i in range(max_iter):
        if abs(z) > 2.0:
            return i
        z = z * z + c
    return max_iter
>> *)
Definition mandelbrot_point (c : complex) (max_iter : Z) : Z :=
  let z := Complex 0.0 0.0 in
  match
    for_each (range max_iter)
      (fun i z => if float_gt (Cabs z) 2.0 then Return i
                  else Continue (z * z + c)%C) z
  with
  | Return i => i
  | Continue _ => max_iter
  end.

(** [julia.py], [julia_point]: the same loop, started at the argument [z]. *)
Definition julia_point (z c : complex) (max_iter : Z) : Z :=
  match
    for_each (range max_iter)
      (fun i z => if float_gt (Cabs z) 2.0 then Return i
                  else Continue (z * z + c)%C) z
  with
  | Return i => i
  | Continue _ => max_iter
  end.

(** ** The orbit of the specification

    [orbit z0 c n] is [z_n] of the recurrence [z_0 = z0],
    [z_{n+1} = z_n^2 + c]; it is written from the words of the
    specification, independently of the loops above. *)

Fixpoint orbit (z0 c : complex) (n : nat) : complex :=
  match n with
  | O => z0
  | S k => (orbit z0 c k * orbit z0 c k + c)%C
  end.

(** [escaped z]: the magnitude of [z] exceeds the escape radius. *)
Definition escaped (z : complex) : Prop := (Cabs z > 2)%R.

(** [first_escape z0 c max_iter r]: [r] is the smallest index of
    [[0, max_iter)] whose orbit point has escaped, or [max_iter] when
    there is none. *)
Definition first_escape (z0 c : complex) (max_iter r : Z) : Prop :=
  (0 <= r < max_iter /\
   escaped (orbit z0 c (Z.to_nat r)) /\
   forall j, 0 <= j < r -> ~ escaped (orbit z0 c (Z.to_nat j)))
  \/
  (r = max_iter /\
   forall j, 0 <= j < max_iter -> ~ escaped (orbit z0 c (Z.to_nat j))).

(** ** Floats and arrays *)

(** True division [a / b]: Python raises [ZeroDivisionError] on a zero
    divisor. *)
Definition true_div (a b : R) : outcome R :=
  if Req_dec_T b 0 then Raise ZeroDivisionError else Ok (a / b)%R.

(** Conversion of an integer to the element type [np.int32]: the value
    is reduced modulo [2^32] into [[-2^31, 2^31)]. *)
Definition int32 (v : Z) : Z := (v + 2 ^ 31) mod 2 ^ 32 - 2 ^ 31.

(** A two-dimensional [np.int32] array, row-major: a list of rows. *)
Definition ndarray : Type := list (list Z).

(** [np.zeros((height, width), dtype=np.int32)]. *)
Definition np_zeros (height width : Z) : outcome ndarray :=
  if (height <? 0) || (width <? 0)
  then Raise (ValueError "negative dimensions are not allowed")
  else Ok (repeat (repeat 0 (Z.to_nat width)) (Z.to_nat height)).

(** An index [i] into an axis of length [len]: negative indices count
    from the end, anything else out of range is an [IndexError]. *)
Definition norm_index (len : nat) (i : Z) : outcome nat :=
  if (0 <=? i) && (i <? Z.of_nat len) then Ok (Z.to_nat i)
  else if (- Z.of_nat len <=? i) && (i <? 0) then Ok (Z.to_nat (i + Z.of_nat len))
  else Raise IndexError.

Fixpoint list_set {A : Type} (l : list A) (n : nat) (v : A) : list A :=
  match l, n with
  | [], _ => []
  | _ :: t, O => v :: t
  | h :: t, S k => h :: list_set t k v
  end.

(** [a[y, x] = v]. *)
Definition setitem (a : ndarray) (y x : Z) (v : Z) : outcome ndarray :=
  r <- norm_index (List.length a) y ;;
  match nth_error a r with
  | None => Raise IndexError
  | Some row =>
      k <- norm_index (List.length row) x ;;
      Ok (list_set a r (list_set row k (int32 v)))
  end.

(** [a[row][col]] for indices inside the array, [None] outside. *)
Definition getitem (a : ndarray) (row col : Z) : option Z :=
  if (row <? 0) || (col <? 0) then None
  else
    match nth_error a (Z.to_nat row) with
    | None => None
    | Some r => nth_error r (Z.to_nat col)
    end.

(** [a.shape == (height, width)]. *)
Definition has_shape (a : ndarray) (height width : Z) : Prop :=
  Z.of_nat (List.length a) = height /\
  Forall (fun row => Z.of_nat (List.length row) = width) a.

(** ** The grid generators *)

(** [mandelbrot.py], [mandelbrot_set]. *)
Definition mandelbrot_set (width height : Z) (x_min x_max y_min y_max : R)
    (max_iter : Z) : outcome ndarray :=
  result <- np_zeros height width ;;
  dx <- true_div (x_max - x_min) (IZR width) ;;
  dy <- true_div (y_max - y_min) (IZR height) ;;
  for_m (range height) (fun y result =>
    for_m (range width) (fun x result =>
      let real := (x_min + IZR x * dx)%R in
      let imag := (y_min + IZR y * dy)%R in
      let c := Complex real imag in
      setitem result y x (mandelbrot_point c max_iter)) result) result.

(** [julia.py], [julia_set]. *)
Definition julia_set (width height : Z) (x_min x_max y_min y_max : R)
    (c_real c_imag : R) (max_iter : Z) : outcome ndarray :=
  result <- np_zeros height width ;;
  let c := Complex c_real c_imag in
  dx <- true_div (x_max - x_min) (IZR width) ;;
  dy <- true_div (y_max - y_min) (IZR height) ;;
  for_m (range height) (fun y result =>
    for_m (range width) (fun x result =>
      let real := (x_min + IZR x * dx)%R in
      let imag := (y_min + IZR y * dy)%R in
      let z := Complex real imag in
      setitem result y x (julia_point z c max_iter)) result) result.

(** ** The viewport mapper *)

(** The tuple [(x_min, x_max, y_min, y_max)]. *)
Record bounds : Type := Bounds { x_min : R; x_max : R; y_min : R; y_max : R }.

(** ** The parameters of a generation

    The dictionary [params] of a generator: it always holds the keys of
    [default_params], each with a value of the type of its annotation. *)
Record params : Type := Params {
  width : Z;
  height : Z;
  max_iter : Z;
  x_center : R;
  y_center : R;
  zoom : R;
  colormap : string
}.

(** An optional argument: [None] is Python's [None]. *)
Definition override {A : Type} (given : option A) (current : A) : A :=
  match given with
  | Some v => v
  | None => current
  end.

(** The run of [if k is not None: params['k'] = k] over the seven keys. *)
Definition apply_overrides (p : params) (w h n : option Z)
    (xc yc z : option R) (cm : option string) : params :=
  Params (override w (width p)) (override h (height p))
         (override n (max_iter p)) (override xc (x_center p))
         (override yc (y_center p)) (override z (zoom p))
         (override cm (colormap p)).

Module MandelbrotGenerator.

(** [mandelbrot.py], [MandelbrotGenerator.calculate_bounds]. *)
Definition calculate_bounds (x_center y_center zoom : R) (width height : Z)
    : outcome bounds :=
  aspect_ratio <- true_div (IZR width) (IZR height) ;;
  base_extent <- true_div 4.0 zoom ;;
  let x_extent := (base_extent * aspect_ratio / 2)%R in
  let y_extent := (base_extent / 2)%R in
  Ok (Bounds (x_center - x_extent) (x_center + x_extent)
             (y_center - y_extent) (y_center + y_extent)).

(** [mandelbrot.py], [self.default_params]. *)
Definition default_params : params :=
  Params 800 600 100 (-0.5) 0.0 1.0 "hot".

(** [mandelbrot.py], [MandelbrotGenerator.generate].  [elapsed] is the
    difference of the two readings of the clock around the call of
    [mandelbrot_set]; the lines printed when [verbose] is set are not
    modelled, the division that computes the throughput is. *)
Definition generate (width height max_iter : option Z)
    (x_center y_center zoom : option R) (colormap : option string)
    (verbose : bool) (elapsed : R) : outcome (ndarray * params) :=
  let params :=
    apply_overrides default_params width height max_iter
      x_center y_center zoom colormap in
  match params with
  | Params w h n xc yc z _ =>
      b <- calculate_bounds xc yc z w h ;;
      fractal_data <- mandelbrot_set w h (x_min b) (x_max b) (y_min b) (y_max b) n ;;
      pixels_per_second <-
        (if verbose then true_div (IZR (w * h)) elapsed else Ok 0%R) ;;
      Ok (fractal_data, params)
  end.

End MandelbrotGenerator.

(** ** Python values of the constant parser

    A [float] handed to or produced by the constant parser may be any
    Python float: a finite number, an infinity or NaN (the literals
    [inf] and [nan] are accepted by [complex(str)]).  The JIT-compiled
    kernels above are only given finite coordinates. *)

Inductive pyfloat : Type :=
| Finite (x : R)
| Infinite (negative : bool)
| NaN.

(** A Python [complex] value, with the attribute names of Python. *)
Record pycomplex : Type := PyComplexValue { real : pyfloat; imag : pyfloat }.

(** The argument [c_input] of [parse_julia_c]: a complex, a tuple or a
    list of floats, a string (of ASCII characters), or a value of
    another class, of which only the class name matters. *)
Inductive py_value : Type :=
| PyComplex (c : pycomplex)
| PyTuple (items : list pyfloat)
| PyList (items : list pyfloat)
| PyStr (s : string)
| PyOther (class_name : string).

(** [type(v)], as an f-string prints it. *)
Definition type_repr (v : py_value) : string :=
  let name :=
    (match v with
     | PyComplex _ => "complex"
     | PyTuple _ => "tuple"
     | PyList _ => "list"
     | PyStr _ => "str"
     | PyOther n => n
     end)%string in
  ("<class '" ++ name ++ "'>")%string.

(** ** Strings *)

Definition lower_ascii (c : ascii) : ascii :=
  let n := nat_of_ascii c in
  if (65 <=? n)%nat && (n <=? 90)%nat then ascii_of_nat (n + 32) else c.

(** [s.lower()]. *)
Fixpoint lower (s : string) : string :=
  match s with
  | EmptyString => EmptyString
  | String c t => String (lower_ascii c) (lower t)
  end.

(** [s.replace(old, new)] for a one-character [old]. *)
Fixpoint replace (old : ascii) (new : string) (s : string) : string :=
  match s with
  | EmptyString => EmptyString
  | String c t =>
      if (c =? old)%char then (new ++ replace old new t)%string
      else String c (replace old new t)
  end.

Fixpoint starts_with (p s : string) : bool :=
  match p, s with
  | EmptyString, _ => true
  | String a p', String b s' => (a =? b)%char && starts_with p' s'
  | String _ _, EmptyString => false
  end.

(** [p in s]: [p] occurs in [s] as a substring. *)
Fixpoint contains (p s : string) : bool :=
  starts_with p s ||
  match s with
  | EmptyString => false
  | String _ t => contains p t
  end.

(** ** Dictionaries with string keys, in insertion order *)

Definition dict (V : Type) : Type := list (string * V).

Fixpoint dict_get {V : Type} (d : dict V) (k : string) : option V :=
  match d with
  | [] => None
  | (k', v) :: rest => if (k' =? k)%string then Some v else dict_get rest k
  end.

(** [d[k]]. *)
Definition dict_getitem {V : Type} (d : dict V) (k : string) : outcome V :=
  match dict_get d k with
  | Some v => Ok v
  | None => Raise (KeyError k)
  end.

(** [k in d]. *)
Definition dict_contains {V : Type} (d : dict V) (k : string) : bool :=
  match dict_get d k with
  | Some _ => true
  | None => false
  end.

(** ** The builtin [complex(str)]

    The grammar of CPython's string-to-complex conversion, on ASCII
    strings.  A parsed float is kept as a literal first (decimal
    mantissa and exponent, or a special value), so that parsing runs by
    computation; [float_of_lit] gives the literal its value. *)

Inductive float_lit : Type :=
| LitDec (mantissa exponent : Z)
| LitInf (negative : bool)
| LitNan.

Definition float_of_lit (l : float_lit) : pyfloat :=
  match l with
  | LitDec m e => Finite (IZR m * powerRZ 10 e)
  | LitInf neg => Infinite neg
  | LitNan => NaN
  end.

Definition is_digit (c : ascii) : bool :=
  let n := nat_of_ascii c in (48 <=? n)%nat && (n <=? 57)%nat.

Definition digit_value (c : ascii) : Z := Z.of_nat (nat_of_ascii c) - 48.

(** The characters of [Py_ISSPACE]: space, tab, line feed, vertical tab,
    form feed, carriage return. *)
Definition is_space (c : ascii) : bool :=
  let n := nat_of_ascii c in
  (n =? 32)%nat || ((9 <=? n)%nat && (n <=? 13)%nat).

Definition is_sign (c : ascii) : bool := (c =? "+")%char || (c =? "-")%char.

Definition is_j (c : ascii) : bool := (c =? "j")%char || (c =? "J")%char.

Fixpoint skip_spaces (s : string) : string :=
  match s with
  | String c t => if is_space c then skip_spaces t else s
  | EmptyString => s
  end.

(** Reads a run of digits: the number they spell after [acc], how many
    there were (added to [count]), and the rest of the string. *)
Fixpoint read_digits (s : string) (acc count : Z) : Z * Z * string :=
  match s with
  | String c t =>
      if is_digit c then read_digits t (10 * acc + digit_value c) (count + 1)
      else (acc, count, s)
  | EmptyString => (acc, count, s)
  end.

Definition read_sign (s : string) : bool * string :=
  match s with
  | String c t =>
      if (c =? "-")%char then (true, t)
      else if (c =? "+")%char then (false, t)
      else (false, s)
  | EmptyString => (false, s)
  end.

(** An exponent part [e], [e+] or [e-] followed by digits; an [e] that
    no digit follows is not part of the number. *)
Definition read_exponent (s : string) : Z * string :=
  match s with
  | String c t =>
      if (c =? "e")%char || (c =? "E")%char then
        let (neg, t1) := read_sign t in
        let '(v, n, t2) := read_digits t1 0 0 in
        if n =? 0 then (0, s) else (if neg then - v else v, t2)
      else (0, s)
  | EmptyString => (0, s)
  end.

(** The decimal numbers of [strtod]: an optional sign, digits with an
    optional point (one digit at least), an optional exponent. *)
Definition parse_decimal (s : string) : option (float_lit * string) :=
  let (neg, s1) := read_sign s in
  let '(m1, n1, s2) := read_digits s1 0 0 in
  let '(m2, n2, s3) :=
    match s2 with
    | String c t => if (c =? ".")%char then read_digits t m1 0 else (m1, 0, s2)
    | EmptyString => (m1, 0, s2)
    end in
  if n1 + n2 =? 0 then None
  else
    let (e, s4) := read_exponent s3 in
    Some (LitDec (if neg then - m2 else m2) (e - n2), s4).

(** Strips the prefix [p], matched without regard to case ([p] is in
    lower case). *)
Fixpoint strip_prefix_ci (p s : string) : option string :=
  match p, s with
  | EmptyString, _ => Some s
  | String a p', String b s' =>
      if (a =? lower_ascii b)%char then strip_prefix_ci p' s' else None
  | String _ _, EmptyString => None
  end.

Definition parse_inf_or_nan (s : string) : option (float_lit * string) :=
  let (neg, s1) := read_sign s in
  match strip_prefix_ci "inf" s1 with
  | Some t =>
      match strip_prefix_ci "inity" t with
      | Some t' => Some (LitInf neg, t')
      | None => Some (LitInf neg, t)
      end
  | None =>
      match strip_prefix_ci "nan" s1 with
      | Some t => Some (LitNan, t)
      | None => None
      end
  end.

(** [PyOS_string_to_double] with an end pointer: the longest prefix that
    is a float, and what follows it. *)
Definition string_to_double (s : string) : option (float_lit * string) :=
  match parse_decimal s with
  | Some r => Some r
  | None => parse_inf_or_nan s
  end.

(** Expects the imaginary unit at the head of [s]. *)
Definition expect_j {A : Type} (s : string) (v : A) : option (A * string) :=
  match s with
  | String c t => if is_j c then Some (v, t) else None
  | EmptyString => None
  end.

Definition unit_lit (negative : bool) : float_lit :=
  LitDec (if negative then -1 else 1) 0.

Definition zero_lit : float_lit := LitDec 0 0.

(** The three forms [<float>], [<float>j], [<float><signed-float>j] and
    the older [<float><sign>j], [<sign>j], [j]: the pair (real part,
    imaginary part) and the rest of the string. *)
Definition complex_body (s : string)
    : option (float_lit * float_lit * string) :=
  match string_to_double s with
  | Some (z, s1) =>
      match s1 with
      | String c t =>
          if is_sign c then
            match string_to_double s1 with
            | Some (y, s2) => expect_j s2 (z, y)
            | None => expect_j t (z, unit_lit (c =? "-")%char)
            end
          else if is_j c then Some (zero_lit, z, t)
          else Some (z, zero_lit, s1)
      | EmptyString => Some (z, zero_lit, s1)
      end
  | None =>
      match s with
      | String c t =>
          if is_sign c then expect_j t (zero_lit, unit_lit (c =? "-")%char)
          else expect_j s (zero_lit, unit_lit false)
      | EmptyString => None
      end
  end.

(** [complex_from_string_inner]: surrounding white space, an optional
    pair of parentheses, and nothing after the number. *)
Definition complex_from_string_inner (s : string)
    : option (float_lit * float_lit) :=
  let s0 := skip_spaces s in
  let (got_bracket, s1) :=
    match s0 with
    | String c t => if (c =? "(")%char then (true, skip_spaces t) else (false, s0)
    | EmptyString => (false, s0)
    end in
  match complex_body s1 with
  | None => None
  | Some (x, y, s2) =>
      let s3 := skip_spaces s2 in
      let s4 :=
        if got_bracket then
          match s3 with
          | String c t => if (c =? ")")%char then Some (skip_spaces t) else None
          | EmptyString => None
          end
        else Some s3 in
      match s4 with
      | Some EmptyString => Some (x, y)
      | _ => None
      end
  end.

(** Underscores may group digits: one is removed when a digit stands on
    each side of it, and is an error anywhere else. *)
Fixpoint strip_underscores (prev : ascii) (s : string) : option string :=
  match s with
  | EmptyString => if (prev =? "_")%char then None else Some EmptyString
  | String c t =>
      if (c =? "_")%char then
        if is_digit prev then strip_underscores c t else None
      else if (prev =? "_")%char && negb (is_digit c) then None
      else option_map (String c) (strip_underscores c t)
  end.

(** The literal pair that [complex(s)] reads, [None] for a [ValueError]. *)
Definition parse_complex_literal (s : string)
    : option (float_lit * float_lit) :=
  match strip_underscores Ascii.zero s with
  | Some s' => complex_from_string_inner s'
  | None => None
  end.

(** [complex(s)] for a string [s]. *)
Definition py_complex (s : string) : option pycomplex :=
  match parse_complex_literal s with
  | Some (x, y) => Some (PyComplexValue (float_of_lit x) (float_of_lit y))
  | None => None
  end.

(** ** The Julia generator *)

Module JuliaGenerator.

(** The complex constant [a + b j] of two finite floats. *)
Definition const (a b : R) : pycomplex := PyComplexValue (Finite a) (Finite b).

(** [julia.py], [self.famous_julia_sets]. *)
Definition famous_julia_sets : dict pycomplex :=
  [ ("classic"%string, const (-0.7) 0.27015);
    ("dragon"%string, const (-0.8) 0.156);
    ("spiral"%string, const (-0.7) (-0.3));
    ("lightning"%string, const (-0.54) 0.54);
    ("dendrite"%string, const (-0.235) 0.85);
    ("rabbit"%string, const (-0.123) 0.745);
    ("airplane"%string, const (-0.75) 0.1);
    ("galaxy"%string, const 0.285 0.01);
    ("flower"%string, const (-0.4) 0.6);
    ("seahorse"%string, const (-0.75) 0.11) ].

(** The message of the [ValueError] for a string that is no constant;
    [c_input] is the local variable of that name when the exception
    is raised. *)
Definition invalid_format_message (c_input : string) : string :=
  ("Formato de c inválido: " ++ c_input ++ ". " ++
   "Use formatos como: '0.3+0.5j', 'classic', o tuple (0.3, 0.5)")%string.

Definition unsupported_type_message (c_input : py_value) : string :=
  ("Tipo de entrada no soportado para c: " ++ type_repr c_input)%string.

(** [julia.py], [JuliaGenerator.parse_julia_c]. *)
Definition parse_julia_c (c_input : py_value) : outcome pycomplex :=
  match c_input with
  | PyComplex c => Ok c
  | PyTuple [a; b] | PyList [a; b] => Ok (PyComplexValue a b)
  | PyStr s =>
      if dict_contains famous_julia_sets (lower s)
      then dict_getitem famous_julia_sets (lower s)
      else
        let c_input := replace " " "" (replace "i" "j" s) in
        match py_complex c_input with
        | Some c => Ok c
        | None => Raise (ValueError (invalid_format_message c_input))
        end
  | _ => Raise (ValueError (unsupported_type_message c_input))
  end.

(** [julia.py], [JuliaGenerator.calculate_bounds]. *)
Definition calculate_bounds (x_center y_center zoom : R) (width height : Z)
    : outcome bounds :=
  aspect_ratio <- true_div (IZR width) (IZR height) ;;
  base_extent <- true_div 4.0 zoom ;;
  let x_extent := (base_extent * aspect_ratio / 2)%R in
  let y_extent := (base_extent / 2)%R in
  Ok (Bounds (x_center - x_extent) (x_center + x_extent)
             (y_center - y_extent) (y_center + y_extent)).

(** [julia.py], [self.default_params]. *)
Definition default_params : params :=
  Params 800 600 100 0.0 0.0 1.0 "plasma".

(** The dictionary that [generate] returns: the seven keys and
    ['julia_c']. *)
Record julia_params : Type := JuliaParams {
  view : params;
  julia_c : pycomplex
}.

(** The two parts of a complex constant when both are finite. *)
Definition finite_parts (c : pycomplex) : option (R * R) :=
  match real c, imag c with
  | Finite a, Finite b => Some (a, b)
  | _, _ => None
  end.

(** [julia.py], [JuliaGenerator.generate].  An argument [julia_c] that
    the caller leaves out is [None] here and takes its default,
    ['classic']; [elapsed] is as for the Mandelbrot generator.  The
    result is [None] when the call reaches [julia_set] with a constant
    that has an infinite or NaN part, which the model of the kernels
    does not cover. *)
Definition generate (julia_c : option py_value)
    (width height max_iter : option Z)
    (x_center y_center zoom : option R) (colormap : option string)
    (verbose : bool) (elapsed : R) : option (outcome (ndarray * julia_params)) :=
  let julia_c := override julia_c (PyStr "classic") in
  let params :=
    apply_overrides default_params width height max_iter
      x_center y_center zoom colormap in
  match parse_julia_c julia_c with
  | Raise e => Some (Raise e)
  | Ok c =>
      match params with
      | Params w h n xc yc z _ =>
          match calculate_bounds xc yc z w h with
          | Raise e => Some (Raise e)
          | Ok b =>
              match finite_parts c with
              | None => None
              | Some (c_real, c_imag) =>
                  Some (fractal_data <-
                          julia_set w h (x_min b) (x_max b) (y_min b) (y_max b)
                            c_real c_imag n ;;
                        pixels_per_second <-
                          (if verbose then true_div (IZR (w * h)) elapsed
                           else Ok 0%R) ;;
                        Ok (fractal_data, JuliaParams params c))
              end
          end
      end
  end.

End JuliaGenerator.

(** ** The file manager *)

Module FractalFileManager.


End FractalFileManager.

(** ** The configuration manager *)

(** [d.get(k, default)]. *)
Definition dict_get_default {V : Type} (d : dict V) (k : string) (default : V)
    : V :=
  match dict_get d k with
  | Some v => v
  | None => default
  end.

(** [str(n)] for an integer [n]. *)
Definition str_of_int (n : Z) : string := NilZero.string_of_int (Z.to_int n).

Module FractalConfig.

(** The entries of the loaded configuration that [validate_parameters]
    reads, [None] for an entry that the file does not give:
    [algorithms.max_iterations_limit], [algorithms.max_resolution_limit],
    [cli.warn_on_high_memory] and [cli.memory_warning_threshold]. *)
Record settings : Type := Settings {
  max_iterations_limit : option Z;
  max_resolution_limit : option Z;
  warn_on_high_memory : option bool;
  memory_warning_threshold : option Z
}.

(** What [validate_parameters] prints: the warning about memory, which
    shows the estimate in gigabytes. *)
Inductive printed : Type :=
| MemoryWarning (estimated_memory : Z).

Definition iteration_limit_message (max_iter max_iter_limit : Z) : string :=
  ("max_iter (" ++ str_of_int max_iter ++ ") excede el límite de " ++
   str_of_int max_iter_limit)%string.

Definition resolution_limit_message (width height max_res_limit : Z)
    : string :=
  ("Resolución (" ++ str_of_int width ++ "x" ++ str_of_int height ++
   ") excede el límite de " ++ str_of_int max_res_limit ++ "px")%string.

(** [config_manager.py], [FractalConfig.validate_parameters].  [params]
    holds the integer entries of the dictionary of parameters; the
    result is the value returned and the warnings printed. *)
Definition validate_parameters (config : settings) (params : dict Z)
    : outcome (bool * list printed) :=
  let max_iter_limit := override (max_iterations_limit config) 1000 in
  if dict_get_default params "max_iter" 0 >? max_iter_limit then
    max_iter <- dict_getitem params "max_iter" ;;
    Raise (ValueError (iteration_limit_message max_iter max_iter_limit))
  else
    let max_res_limit := override (max_resolution_limit config) 8192 in
    let width := dict_get_default params "width" 0 in
    let height := dict_get_default params "height" 0 in
    if (width >? max_res_limit) || (height >? max_res_limit) then
      Raise (ValueError (resolution_limit_message width height max_res_limit))
    else
      let warnings :=
        if override (warn_on_high_memory config) true then
          let memory_threshold :=
            override (memory_warning_threshold config) 1000000000 in
          let estimated_memory := width * height * 4 * 2 in
          if estimated_memory >? memory_threshold
          then [MemoryWarning estimated_memory]
          else []
        else [] in
      Ok (true, warnings).

End FractalConfig.

(** ** Auxiliary definitions of the proofs *)

(** The complex conjugate and the opposite. *)
Definition Cconj (z : complex) : complex := Complex (re z) (- im z).

Definition Copp (z : complex) : complex := Complex (- re z) (- im z).

(** The squared modulus. *)
Definition norm2 (z : complex) : R := (re z * re z + im z * im z)%R.

(** The body shared by the two kernels. *)
Definition kernel_body (c : complex) (i : Z) (z : complex) : flow Z complex :=
  if float_gt (Cabs z) 2.0 then Return i else Continue (z * z + c)%C.

(** The plane point of pixel [(row, col)] for a view of center
    [(xc, yc)] and zoom [z] on a [w] by [h] grid: the pixels are square,
    of side [4 / (z h)], and the center of the view is the corner of
    pixel [(h / 2, w / 2)]. *)
Definition view_point (p : params) (row col : Z) : complex :=
  Complex (x_center p + 2 * (2 * IZR col - IZR (width p)) /
                        (zoom p * IZR (height p)))
          (y_center p + 2 * (2 * IZR row - IZR (height p)) /
                        (zoom p * IZR (height p))).

(** The clock does not stop a run that is quiet or took some time. *)
Definition clock_ok (verbose : bool) (elapsed : R) : Prop :=
  verbose = false \/ elapsed <> 0%R.

(** Decimal digits, for the proofs about literals. *)










(** * Properties *)

(** ** Real-number facts about the modulus *)

Local Open Scope R_scope.

Lemma norm2_nonneg (z : complex) : 0 <= norm2 z.
Proof. unfold norm2. nra. Qed.

Lemma Cabs_norm2 (z : complex) : Cabs z = sqrt (norm2 z).
Proof. reflexivity. Qed.

Lemma Cabs_nonneg (z : complex) : 0 <= Cabs z.
Proof. rewrite Cabs_norm2. apply sqrt_pos. Qed.

Lemma Cabs_sqr (z : complex) : Cabs z * Cabs z = norm2 z.
Proof. rewrite Cabs_norm2. apply sqrt_sqrt, norm2_nonneg. Qed.

(** Comparing the modulus with a non-negative radius is comparing the
    squares. *)
Lemma Cabs_gt_iff (z : complex) (r : R) :
  0 <= r -> (Cabs z > r <-> norm2 z > r * r).
Proof.
  intros Hr. pose proof (Cabs_nonneg z) as Hz. pose proof (Cabs_sqr z) as Hs.
  split; intros H; nra.
Qed.

Lemma Cabs_le_iff (z : complex) (r : R) :
  0 <= r -> (Cabs z <= r <-> norm2 z <= r * r).
Proof.
  intros Hr. pose proof (Cabs_nonneg z) as Hz. pose proof (Cabs_sqr z) as Hs.
  split; intros H; nra.
Qed.

Lemma Cabs_eq_iff (z : complex) (r : R) :
  0 <= r -> (Cabs z = r <-> norm2 z = r * r).
Proof.
  intros Hr. pose proof (Cabs_nonneg z) as Hz. pose proof (Cabs_sqr z) as Hs.
  split; intros H; nra.
Qed.

Lemma escaped_iff (z : complex) : escaped z <-> norm2 z > 4.
Proof.
  unfold escaped. rewrite (Cabs_gt_iff z 2) by lra.
  split; intros H; lra.
Qed.

(** The source writes the radius and the origin as float literals. *)
Lemma two_literal : 2.0 = 2.
Proof. lra. Qed.

Lemma origin_literal : Complex 0.0 0.0 = Complex 0 0.
Proof. f_equal; lra. Qed.

Lemma float_gt_true (a b : R) : float_gt a b = true <-> a > b.
Proof.
  unfold float_gt. destruct (Rgt_dec a b); split; intros H;
    try reflexivity; try assumption; try discriminate; contradiction.
Qed.

Lemma float_gt_false (a b : R) : float_gt a b = false <-> ~ a > b.
Proof.
  unfold float_gt. destruct (Rgt_dec a b); split; intros H;
    try reflexivity; try assumption; try discriminate; contradiction.
Qed.

Lemma escape_test_true (z : complex) :
  float_gt (Cabs z) 2.0 = true <-> escaped z.
Proof. rewrite float_gt_true, two_literal. reflexivity. Qed.

Lemma escape_test_false (z : complex) :
  float_gt (Cabs z) 2.0 = false <-> ~ escaped z.
Proof. rewrite float_gt_false, two_literal. reflexivity. Qed.


Local Close Scope R_scope.

(** ** The loop of the kernels *)

Lemma mandelbrot_point_unfold (c : complex) (max_iter : Z) :
  mandelbrot_point c max_iter =
  match for_each (range max_iter) (kernel_body c) (Complex 0.0 0.0) with
  | Return i => i
  | Continue _ => max_iter
  end.
Proof. reflexivity. Qed.

Lemma julia_point_unfold (z c : complex) (max_iter : Z) :
  julia_point z c max_iter =
  match for_each (range max_iter) (kernel_body c) z with
  | Return i => i
  | Continue _ => max_iter
  end.
Proof. reflexivity. Qed.

(** The Mandelbrot kernel is the Julia kernel started at the origin. *)
Lemma mandelbrot_point_julia (c : complex) (max_iter : Z) :
  mandelbrot_point c max_iter = julia_point (Complex 0 0) c max_iter.
Proof.
  rewrite mandelbrot_point_unfold, julia_point_unfold, origin_literal.
  reflexivity.
Qed.

Section KernelLoop.

Variables z0 c : complex.

(** Invariant of the loop, entered at index [k] with [z = z_k]: it
    returns the first escaped index from [k] on, or runs to the end with
    [z = z_{k+n}] when there is none. *)
Lemma kernel_loop (n : nat) :
  forall k : nat,
    match for_each (map Z.of_nat (seq k n)) (kernel_body c) (orbit z0 c k) with
    | Return i =>
        exists j : nat,
          i = Z.of_nat j /\ (k <= j < k + n)%nat /\
          escaped (orbit z0 c j) /\
          forall m, (k <= m < j)%nat -> ~ escaped (orbit z0 c m)
    | Continue z =>
        z = orbit z0 c (k + n) /\
        forall m, (k <= m < k + n)%nat -> ~ escaped (orbit z0 c m)
    end.
Proof.
  induction n as [|n IH]; intros k; simpl.
  - split; [f_equal; lia | intros m Hm; lia].
  - unfold kernel_body at 1.
    destruct (float_gt (Cabs (orbit z0 c k)) 2.0) eqn:Htest.
    + apply escape_test_true in Htest.
      exists k. split; [reflexivity|]. split; [lia|].
      split; [assumption | intros m Hm; lia].
    + apply escape_test_false in Htest.
      specialize (IH (S k)).
      change (orbit z0 c (S k)) with (orbit z0 c k * orbit z0 c k + c)%C in IH.
      destruct (for_each (map Z.of_nat (seq (S k) n)) (kernel_body c)
                  (orbit z0 c k * orbit z0 c k + c)%C) as [i|z].
      * destruct IH as (j & -> & Hj & Hesc & Hmin).
        exists j. split; [reflexivity|]. split; [lia|]. split; [assumption|].
        intros m Hm. destruct (Nat.eq_dec m k) as [->|Hne]; [assumption|].
        apply Hmin; lia.
      * destruct IH as [-> Hnone]. split.
        -- replace (k + S n)%nat with (S k + n)%nat by lia. reflexivity.
        -- intros m Hm. destruct (Nat.eq_dec m k) as [->|Hne]; [assumption|].
           apply Hnone; lia.
Qed.

(** What the Julia kernel returns, for any bound. *)
Lemma julia_point_first_escape (max_iter : Z) :
  first_escape z0 c max_iter (julia_point z0 c max_iter).
Proof.
  rewrite julia_point_unfold. unfold range, first_escape.
  pose proof (kernel_loop (Z.to_nat max_iter) 0) as H. simpl orbit in H.
  destruct (for_each (map Z.of_nat (seq 0 (Z.to_nat max_iter))) (kernel_body c) z0)
    as [i|z].
  - destruct H as (j & -> & Hj & Hesc & Hmin). left.
    rewrite Nat2Z.id. split; [lia|]. split; [assumption|].
    intros m Hm. apply Hmin; lia.
  - destruct H as [_ Hnone]. right. split; [reflexivity|].
    intros j Hj. apply Hnone; lia.
Qed.

(** [first_escape] determines its result. *)
Lemma first_escape_unique (max_iter r1 r2 : Z) :
  first_escape z0 c max_iter r1 -> first_escape z0 c max_iter r2 -> r1 = r2.
Proof.
  intros [(H1 & E1 & M1)|(-> & N1)] [(H2 & E2 & M2)|(-> & N2)].
  - destruct (Z.lt_trichotomy r1 r2) as [Hlt|[Heq|Hgt]]; [|assumption|].
    + exfalso. exact (M2 r1 ltac:(lia) E1).
    + exfalso. exact (M1 r2 ltac:(lia) E2).
  - exfalso. exact (N2 r1 ltac:(lia) E1).
  - exfalso. exact (N1 r2 ltac:(lia) E2).
  - reflexivity.
Qed.

Lemma julia_point_escapes_at (max_iter i : Z) :
  0 <= i < max_iter ->
  escaped (orbit z0 c (Z.to_nat i)) ->
  (forall j, 0 <= j < i -> ~ escaped (orbit z0 c (Z.to_nat j))) ->
  julia_point z0 c max_iter = i.
Proof.
  intros Hi Hesc Hmin.
  apply (first_escape_unique max_iter).
  - apply julia_point_first_escape.
  - left. auto.
Qed.

Lemma julia_point_no_escape (max_iter : Z) :
  (forall n : nat, ~ escaped (orbit z0 c n)) ->
  julia_point z0 c max_iter = max_iter.
Proof.
  intros Hnone.
  apply (first_escape_unique max_iter).
  - apply julia_point_first_escape.
  - right. split; [reflexivity | intros j _; apply Hnone].
Qed.

Lemma julia_point_range (max_iter : Z) :
  0 <= max_iter -> 0 <= julia_point z0 c max_iter <= max_iter.
Proof.
  intros Hpos.
  destruct (julia_point_first_escape max_iter) as [(H & _)|(-> & _)]; lia.
Qed.


End KernelLoop.

(** ** Orbits that are known in closed form *)

Lemma orbit_origin (n : nat) :
  orbit (Complex 0 0) (Complex 0 0) n = Complex 0 0.
Proof.
  induction n as [|n IH]; simpl; [reflexivity|].
  rewrite IH. unfold Cadd, Cmul; simpl. f_equal; lra.
Qed.

Lemma origin_not_escaped : ~ escaped (Complex 0 0).
Proof. rewrite escaped_iff. unfold norm2; simpl. lra. Qed.

(** The first step of the Mandelbrot orbit lands on [c]. *)
Lemma orbit_origin_1 (c : complex) : orbit (Complex 0 0) c 1 = c.
Proof. destruct c as [a b]. unfold orbit, Cadd, Cmul; simpl. f_equal; lra. Qed.



(** The Mandelbrot kernel at [c = 0]: the orbit stays at the origin. *)
Lemma mandelbrot_point_origin (max_iter : Z) :
  mandelbrot_point (Complex 0 0) max_iter = max_iter.
Proof.
  rewrite mandelbrot_point_julia. apply julia_point_no_escape.
  intros n. rewrite orbit_origin. apply origin_not_escaped.
Qed.



(** ** Claims about the kernels *)









Lemma Cabs_real (x : R) : (0 <= x)%R -> Cabs (Complex x 0) = x.
Proof.
  intros Hx. apply Cabs_eq_iff; [exact Hx|]. unfold norm2; simpl. ring.
Qed.


(** ** Arrays *)

Lemma list_set_length {A : Type} (l : list A) (n : nat) (v : A) :
  List.length (list_set l n v) = List.length l.
Proof.
  revert n. induction l as [|h t IH]; intros [|n]; simpl; auto.
Qed.

Lemma nth_error_list_set_eq {A : Type} (l : list A) (n : nat) (v : A) :
  (n < List.length l)%nat -> nth_error (list_set l n v) n = Some v.
Proof.
  revert n. induction l as [|h t IH]; intros [|n] Hn; simpl in *;
    try lia; [reflexivity | apply IH; lia].
Qed.

Lemma nth_error_list_set_neq {A : Type} (l : list A) (n m : nat) (v : A) :
  n <> m -> nth_error (list_set l n v) m = nth_error l m.
Proof.
  revert n m. induction l as [|h t IH]; intros [|n] [|m] Hne; simpl;
    try reflexivity; try congruence.
  apply IH. congruence.
Qed.

Lemma Forall_list_set {A : Type} (P : A -> Prop) (l : list A) (n : nat) (v : A) :
  Forall P l -> P v -> Forall P (list_set l n v).
Proof.
  intros Hl Hv. revert n.
  induction Hl as [|h t Hh Ht IH]; intros [|n]; simpl; constructor; auto.
Qed.

Lemma norm_index_in_range (len : nat) (i : Z) :
  0 <= i < Z.of_nat len -> norm_index len i = Ok (Z.to_nat i).
Proof.
  intros Hi. unfold norm_index.
  destruct (Z.leb_spec 0 i); [|lia].
  destruct (Z.ltb_spec i (Z.of_nat len)); [|lia]. reflexivity.
Qed.

Lemma getitem_in_range (a : ndarray) (row col : Z) :
  0 <= row -> 0 <= col ->
  getitem a row col =
  match nth_error a (Z.to_nat row) with
  | None => None
  | Some r => nth_error r (Z.to_nat col)
  end.
Proof.
  intros Hr Hc. unfold getitem.
  destruct (Z.ltb_spec row 0); [lia|].
  destruct (Z.ltb_spec col 0); [lia|]. reflexivity.
Qed.

(** A cell that exists lies inside the shape. *)
Lemma getitem_Some_inside (a : ndarray) (height width row col v : Z) :
  has_shape a height width ->
  getitem a row col = Some v ->
  0 <= row < height /\ 0 <= col < width.
Proof.
  intros [Hlen Hrows] Hget. unfold getitem in Hget.
  destruct (Z.ltb_spec row 0); [discriminate|].
  destruct (Z.ltb_spec col 0); [discriminate|]. simpl in Hget.
  destruct (nth_error a (Z.to_nat row)) as [r|] eqn:Hrow; [|discriminate].
  assert (Hr : (Z.to_nat row < List.length a)%nat).
  { apply nth_error_Some. congruence. }
  assert (Hc : (Z.to_nat col < List.length r)%nat).
  { apply nth_error_Some. congruence. }
  rewrite Forall_forall in Hrows.
  pose proof (Hrows r (nth_error_In _ _ Hrow)). lia.
Qed.

Lemma np_zeros_ok (height width : Z) :
  0 <= height -> 0 <= width ->
  exists a, np_zeros height width = Ok a /\ has_shape a height width.
Proof.
  intros Hh Hw. unfold np_zeros.
  destruct (Z.ltb_spec height 0); [lia|].
  destruct (Z.ltb_spec width 0); [lia|]. simpl.
  eexists. split; [reflexivity|]. split.
  - rewrite repeat_length. lia.
  - apply Forall_forall. intros row Hin.
    apply repeat_spec in Hin. subst row. rewrite repeat_length. lia.
Qed.


Lemma true_div_ok (a b : R) : b <> 0%R -> true_div a b = Ok (a / b)%R.
Proof.
  intros Hb. unfold true_div. destruct (Req_dec_T b 0); [contradiction|].
  reflexivity.
Qed.


(** One assignment inside the shape: it succeeds, keeps the shape,
    changes the addressed cell and no other. *)
Lemma setitem_inside (a : ndarray) (height width y x v : Z) :
  has_shape a height width ->
  0 <= y < height -> 0 <= x < width ->
  exists a',
    setitem a y x v = Ok a' /\
    has_shape a' height width /\
    getitem a' y x = Some (int32 v) /\
    forall r c, ~ (r = y /\ c = x) -> getitem a' r c = getitem a r c.
Proof.
  intros [Hlen Hrows] Hy Hx. unfold setitem.
  rewrite norm_index_in_range by lia. simpl.
  destruct (nth_error a (Z.to_nat y)) as [row|] eqn:Hrow.
  2:{ apply nth_error_None in Hrow. lia. }
  assert (Hw : Z.of_nat (List.length row) = width).
  { rewrite Forall_forall in Hrows. apply Hrows.
    apply (nth_error_In _ _ Hrow). }
  rewrite norm_index_in_range by lia. simpl.
  eexists. split; [reflexivity|].
  assert (Hylt : (Z.to_nat y < List.length a)%nat) by lia.
  assert (Hxlt : (Z.to_nat x < List.length row)%nat) by lia.
  split; [|split].
  - split.
    + rewrite list_set_length. exact Hlen.
    + apply Forall_list_set; [exact Hrows|].
      rewrite list_set_length. exact Hw.
  - rewrite getitem_in_range by lia.
    rewrite nth_error_list_set_eq by exact Hylt.
    apply nth_error_list_set_eq. exact Hxlt.
  - intros r c Hne. unfold getitem.
    destruct ((r <? 0) || (c <? 0)) eqn:Hneg; [reflexivity|].
    apply orb_false_iff in Hneg. destruct Hneg as [Hr Hc].
    apply Z.ltb_ge in Hr. apply Z.ltb_ge in Hc.
    destruct (Nat.eq_dec (Z.to_nat y) (Z.to_nat r)) as [Heq|Hneq].
    + assert (r = y) by lia. subst r.
      rewrite nth_error_list_set_eq by exact Hylt. rewrite Hrow.
      apply nth_error_list_set_neq. intros Hxc. apply Hne. split; lia.
    + rewrite nth_error_list_set_neq by exact Hneq. reflexivity.
Qed.

(** ** The two nested loops of the grid generators *)

(** The inner loop over the columns [k .. k+n-1] of row [y]. *)
Lemma fill_row (f : Z -> Z) (height width y : Z) (n : nat) :
  forall (k : nat) (a : ndarray),
    has_shape a height width ->
    0 <= y < height ->
    Z.of_nat (k + n) <= width ->
    exists a',
      for_m (map Z.of_nat (seq k n)) (fun x a => setitem a y x (f x)) a = Ok a' /\
      has_shape a' height width /\
      (forall c, Z.of_nat k <= c < Z.of_nat (k + n) ->
                 getitem a' y c = Some (int32 (f c))) /\
      (forall r c, ~ (r = y /\ Z.of_nat k <= c < Z.of_nat (k + n)) ->
                   getitem a' r c = getitem a r c).
Proof.
  induction n as [|n IH]; intros k a Hshape Hy Hw; simpl.
  - exists a. split; [reflexivity|]. split; [exact Hshape|].
    split; [intros c Hc; lia | reflexivity].
  - destruct (setitem_inside a height width y (Z.of_nat k) (f (Z.of_nat k))
                Hshape Hy ltac:(lia)) as (a1 & Hset & Hshape1 & Hcell & Hframe).
    rewrite Hset. simpl.
    destruct (IH (S k) a1 Hshape1 Hy ltac:(lia))
      as (a' & Hloop & Hshape' & Hcells & Hframe').
    exists a'. split; [exact Hloop|]. split; [exact Hshape'|]. split.
    + intros c Hc. destruct (Z.eq_dec c (Z.of_nat k)) as [->|Hne].
      * rewrite Hframe' by lia. exact Hcell.
      * apply Hcells. lia.
    + intros r c Hout. rewrite Hframe' by lia. apply Hframe. lia.
Qed.

(** The outer loop over the rows [k .. k+n-1]. *)
Lemma fill_rows (f : Z -> Z -> Z) (height width : Z) (n : nat) :
  forall (k : nat) (a : ndarray),
    has_shape a height width ->
    0 <= width ->
    Z.of_nat (k + n) <= height ->
    exists a',
      for_m (map Z.of_nat (seq k n))
        (fun y a => for_m (range width) (fun x a => setitem a y x (f y x)) a) a
      = Ok a' /\
      has_shape a' height width /\
      (forall r c, Z.of_nat k <= r < Z.of_nat (k + n) -> 0 <= c < width ->
                   getitem a' r c = Some (int32 (f r c))) /\
      (forall r c, ~ (Z.of_nat k <= r < Z.of_nat (k + n)) ->
                   getitem a' r c = getitem a r c).
Proof.
  induction n as [|n IH]; intros k a Hshape Hw Hh; simpl.
  - exists a. split; [reflexivity|]. split; [exact Hshape|].
    split; [intros r c Hr; lia | reflexivity].
  - destruct (fill_row (f (Z.of_nat k)) height width (Z.of_nat k)
                (Z.to_nat width) 0 a Hshape ltac:(lia) ltac:(lia))
      as (a1 & Hrow & Hshape1 & Hcells1 & Hframe1).
    unfold range at 1. rewrite Hrow. simpl.
    destruct (IH (S k) a1 Hshape1 Hw ltac:(lia))
      as (a' & Hloop & Hshape' & Hcells & Hframe').
    exists a'. split; [exact Hloop|]. split; [exact Hshape'|]. split.
    + intros r c Hr Hc. destruct (Z.eq_dec r (Z.of_nat k)) as [->|Hne].
      * rewrite Hframe' by lia. apply Hcells1. lia.
      * apply Hcells; lia.
    + intros r c Hout. rewrite Hframe' by lia. apply Hframe1. lia.
Qed.

(** The loops of a generator, run on a fresh array: every cell of the
    [height] by [width] grid receives the value computed for it. *)
Lemma fill_grid (f : Z -> Z -> Z) (height width : Z) (a : ndarray) :
  has_shape a height width ->
  0 <= width ->
  exists g,
    for_m (range height)
      (fun y a => for_m (range width) (fun x a => setitem a y x (f y x)) a) a
    = Ok g /\
    has_shape g height width /\
    forall r c, 0 <= r < height -> 0 <= c < width ->
                getitem g r c = Some (int32 (f r c)).
Proof.
  intros Hshape Hw.
  assert (Hh : 0 <= height) by (destruct Hshape; lia).
  destruct (fill_rows f height width (Z.to_nat height) 0 a Hshape Hw ltac:(lia))
    as (g & Hloop & Hshape' & Hcells & _).
  exists g. split; [exact Hloop|]. split; [exact Hshape'|].
  intros r c Hr Hc. apply Hcells; lia.
Qed.

Lemma IZR_pos_neq (n : Z) : 0 < n -> IZR n <> 0%R.
Proof. intros Hn. apply not_0_IZR. lia. Qed.

(** What [mandelbrot_set] returns for positive dimensions. *)
Lemma mandelbrot_set_cells (width height : Z) (x_min x_max y_min y_max : R)
    (max_iter : Z) :
  0 < width -> 0 < height ->
  exists g,
    mandelbrot_set width height x_min x_max y_min y_max max_iter = Ok g /\
    has_shape g height width /\
    forall row col, 0 <= row < height -> 0 <= col < width ->
      getitem g row col =
      Some (int32 (mandelbrot_point
                     (Complex (x_min + IZR col * ((x_max - x_min) / IZR width))
                              (y_min + IZR row * ((y_max - y_min) / IZR height)))
                     max_iter)).
Proof.
  intros Hw Hh. unfold mandelbrot_set.
  destruct (np_zeros_ok height width ltac:(lia) ltac:(lia)) as (a & Hz & Hshape).
  rewrite Hz. simpl.
  rewrite (true_div_ok _ _ (IZR_pos_neq width Hw)). simpl.
  rewrite (true_div_ok _ _ (IZR_pos_neq height Hh)). simpl.
  apply (fill_grid
           (fun y x => mandelbrot_point
                         (Complex (x_min + IZR x * ((x_max - x_min) / IZR width))
                                  (y_min + IZR y * ((y_max - y_min) / IZR height)))
                         max_iter)
           height width a Hshape).
  lia.
Qed.

(** What [julia_set] returns for positive dimensions. *)
Lemma julia_set_cells (width height : Z) (x_min x_max y_min y_max : R)
    (c_real c_imag : R) (max_iter : Z) :
  0 < width -> 0 < height ->
  exists g,
    julia_set width height x_min x_max y_min y_max c_real c_imag max_iter = Ok g /\
    has_shape g height width /\
    forall row col, 0 <= row < height -> 0 <= col < width ->
      getitem g row col =
      Some (int32 (julia_point
                     (Complex (x_min + IZR col * ((x_max - x_min) / IZR width))
                              (y_min + IZR row * ((y_max - y_min) / IZR height)))
                     (Complex c_real c_imag) max_iter)).
Proof.
  intros Hw Hh. unfold julia_set.
  destruct (np_zeros_ok height width ltac:(lia) ltac:(lia)) as (a & Hz & Hshape).
  rewrite Hz. simpl.
  rewrite (true_div_ok _ _ (IZR_pos_neq width Hw)). simpl.
  rewrite (true_div_ok _ _ (IZR_pos_neq height Hh)). simpl.
  apply (fill_grid
           (fun y x => julia_point
                         (Complex (x_min + IZR x * ((x_max - x_min) / IZR width))
                                  (y_min + IZR y * ((y_max - y_min) / IZR height)))
                         (Complex c_real c_imag) max_iter)
           height width a Hshape).
  lia.
Qed.

Lemma int32_small (v : Z) : - 2 ^ 31 <= v < 2 ^ 31 -> int32 v = v.
Proof.
  intros Hv. unfold int32. rewrite Z.mod_small; lia.
Qed.

Lemma mandelbrot_point_range (c : complex) (max_iter : Z) :
  0 <= max_iter -> 0 <= mandelbrot_point c max_iter <= max_iter.
Proof. rewrite mandelbrot_point_julia. apply julia_point_range. Qed.


(** A one-pixel grid whose pixel is the origin, generated with
    [max_iter = 2^31]: the kernel returns [2^31], which the [np.int32]
    cell holds as [-2^31]. *)
Lemma mandelbrot_set_int32_overflow :
  exists g,
    mandelbrot_set 1 1 0 1 0 1 (2 ^ 31) = Ok g /\
    getitem g 0 0 = Some (- 2 ^ 31) /\
    mandelbrot_point
      (Complex (0 + IZR 0 * (1 - 0) / IZR 1) (0 + IZR 0 * (1 - 0) / IZR 1))
      (2 ^ 31) = 2 ^ 31.
Proof.
  destruct (mandelbrot_set_cells 1 1 0 1 0 1 (2 ^ 31) ltac:(lia) ltac:(lia))
    as (g & Hg & _ & Hcells).
  exists g. split; [exact Hg|].
  specialize (Hcells 0 0 ltac:(lia) ltac:(lia)).
  replace (Complex (0 + IZR 0 * ((1 - 0) / IZR 1)) (0 + IZR 0 * ((1 - 0) / IZR 1)))
    with (Complex 0 0) in Hcells by (f_equal; lra).
  rewrite mandelbrot_point_origin in Hcells.
  split; [exact Hcells|].
  replace (Complex (0 + IZR 0 * (1 - 0) / IZR 1) (0 + IZR 0 * (1 - 0) / IZR 1))
    with (Complex 0 0) by (f_equal; lra).
  apply mandelbrot_point_origin.
Qed.

(** ** Claims about the grid generators *)



(** C3, counterexample.  With [max_iter = 2^31] the cell of the origin
    holds [-2^31], which is not in [[0, max_iter]]. *)
Lemma mandelbrot_set_cell_below_zero :
  0 < 2 ^ 31 /\
  exists g v,
    mandelbrot_set 1 1 0 1 0 1 (2 ^ 31) = Ok g /\
    getitem g 0 0 = Some v /\
    ~ (0 <= v <= 2 ^ 31).
Proof.
  split; [lia|].
  destruct mandelbrot_set_int32_overflow as (g & Hg & Hcell & _).
  exists g, (- 2 ^ 31). split; [exact Hg|]. split; [exact Hcell|]. lia.
Qed.

(** C3, amended.  For every [width > 0], [height > 0], every
    [max_iter] with [0 < max_iter < 2^31] and any plane bounds, both
    generators return a [height] by [width] grid whose every cell is an
    integer of [[0, max_iter]]. *)
Theorem grid_cells_in_range (width height : Z) (x_min x_max y_min y_max : R)
    (c_real c_imag : R) (max_iter : Z)
    (Hw : 0 < width) (Hh : 0 < height) (Hiter : 0 < max_iter < 2 ^ 31) :
  exists gm gj,
    mandelbrot_set width height x_min x_max y_min y_max max_iter = Ok gm /\
    julia_set width height x_min x_max y_min y_max c_real c_imag max_iter
      = Ok gj /\
    has_shape gm height width /\ has_shape gj height width /\
    (forall row col v, getitem gm row col = Some v -> 0 <= v <= max_iter) /\
    (forall row col v, getitem gj row col = Some v -> 0 <= v <= max_iter) /\
    (forall row col, 0 <= row < height -> 0 <= col < width ->
       getitem gm row col <> None /\ getitem gj row col <> None).
Proof.
  destruct (mandelbrot_set_cells width height x_min x_max y_min y_max max_iter
              Hw Hh) as (gm & Hgm & Hsm & Hm).
  destruct (julia_set_cells width height x_min x_max y_min y_max
              c_real c_imag max_iter Hw Hh) as (gj & Hgj & Hsj & Hj).
  exists gm, gj.
  split; [exact Hgm|]. split; [exact Hgj|].
  split; [exact Hsm|]. split; [exact Hsj|].
  split; [|split].
  - intros row col v Hget.
    destruct (getitem_Some_inside gm height width row col v Hsm Hget) as [Hr Hc].
    rewrite (Hm row col Hr Hc) in Hget. injection Hget as <-.
    pose proof (mandelbrot_point_range
                  (Complex (x_min + IZR col * ((x_max - x_min) / IZR width))
                           (y_min + IZR row * ((y_max - y_min) / IZR height)))
                  max_iter ltac:(lia)) as Hrange.
    rewrite int32_small; lia.
  - intros row col v Hget.
    destruct (getitem_Some_inside gj height width row col v Hsj Hget) as [Hr Hc].
    rewrite (Hj row col Hr Hc) in Hget. injection Hget as <-.
    pose proof (julia_point_range
                  (Complex (x_min + IZR col * ((x_max - x_min) / IZR width))
                           (y_min + IZR row * ((y_max - y_min) / IZR height)))
                  (Complex c_real c_imag) max_iter ltac:(lia)) as Hrange.
    rewrite int32_small; lia.
  - intros row col Hr Hc. rewrite (Hm row col Hr Hc), (Hj row col Hr Hc).
    split; discriminate.
Qed.

Lemma grid_cells_in_range_witness :
  exists gm gj,
    mandelbrot_set 4 3 (-2) 2 (-1) 1 50 = Ok gm /\
    julia_set 4 3 (-2) 2 (-1) 1 0 1 50 = Ok gj /\
    (forall row col v, getitem gm row col = Some v -> 0 <= v <= 50) /\
    (forall row col v, getitem gj row col = Some v -> 0 <= v <= 50).
Proof.
  destruct (grid_cells_in_range 4 3 (-2) 2 (-1) 1 0 1 50
              ltac:(lia) ltac:(lia) ltac:(lia))
    as (gm & gj & Hgm & Hgj & _ & _ & Hm & Hj & _).
  exists gm, gj.
  split; [exact Hgm|]. split; [exact Hgj|]. split; [exact Hm | exact Hj].
Defined.






(** ** Claims about the viewport mapper *)

Lemma IZR_pos (n : Z) : 0 < n -> (0 < IZR n)%R.
Proof. intros Hn. apply (IZR_lt 0 n Hn). Qed.





(** ** Claims about the constant parser *)

Import JuliaGenerator.

Lemma starts_with_app (p s : string) : starts_with p (p ++ s) = true.
Proof.
  induction p as [|a p IH]; simpl; [reflexivity|].
  rewrite Ascii.eqb_refl. exact IH.
Qed.

Lemma contains_here (p s : string) : contains p (p ++ s) = true.
Proof.
  destruct p as [|a p]; destruct s as [|b s]; simpl;
    rewrite ?Ascii.eqb_refl, ?starts_with_app; reflexivity.
Qed.

Lemma contains_app_r (p a s : string) :
  contains p s = true -> contains p (a ++ s) = true.
Proof.
  intros H. induction a as [|x a IH]; simpl; [exact H|].
  rewrite IH. apply orb_true_r.
Qed.

(** The message of the format error shows the string it is given and
    names the literal form and a preset. *)
Lemma invalid_format_message_contents (c_input : string) :
  contains c_input (invalid_format_message c_input) = true /\
  contains "'0.3+0.5j'" (invalid_format_message c_input) = true /\
  contains "'classic'" (invalid_format_message c_input) = true.
Proof.
  unfold invalid_format_message. split; [|split].
  - apply contains_app_r. apply contains_here.
  - apply contains_app_r. apply contains_app_r. reflexivity.
  - apply contains_app_r. apply contains_app_r. reflexivity.
Qed.

(** A string that is no preset and that [complex] rejects after the
    replacements: the error carries the string after the
    replacements. *)
Lemma parse_julia_c_invalid (s : string) :
  dict_contains famous_julia_sets (lower s) = false ->
  py_complex (replace " " "" (replace "i" "j" s)) = None ->
  parse_julia_c (PyStr s) =
  Raise (ValueError
           (invalid_format_message (replace " " "" (replace "i" "j" s)))).
Proof.
  intros Hpreset Hlit. unfold parse_julia_c. rewrite Hpreset, Hlit.
  reflexivity.
Qed.

Lemma decimal_3_10 : (IZR 3 * powerRZ 10 (-1) = 0.3)%R.
Proof. simpl. lra. Qed.

Lemma decimal_5_10 : (IZR 5 * powerRZ 10 (-1) = 0.5)%R.
Proof. simpl. lra. Qed.

(** C8. What the constant parser does on the strings of the claim, and
    where it departs from it.  A string whose lower-case form is
    [classic] resolves to [-0.7 + 0.27015i]; the literal [0.3+0.5i]
    resolves to [0.3 + 0.5i]; [bogus] fails with the format error, whose
    message shows [bogus] and the accepted forms.  In general the
    message shows the string after the replacements of [i] by [j] and
    the removal of spaces, not the string that was passed: for [julia]
    it shows [julja], and [julia] does not occur in it. *)
Theorem parse_julia_c_strings :
  (forall s, lower s = "classic"%string ->
     parse_julia_c (PyStr s) = Ok (const (-0.7) 0.27015)) /\
  parse_julia_c (PyStr "CLASSIC") = Ok (const (-0.7) 0.27015) /\
  parse_julia_c (PyStr "0.3+0.5i") = Ok (const 0.3 0.5) /\
  parse_julia_c (PyStr "bogus") =
    Raise (ValueError (invalid_format_message "bogus")) /\
  contains "bogus" (invalid_format_message "bogus") = true /\
  contains "'0.3+0.5j'" (invalid_format_message "bogus") = true /\
  contains "'classic'" (invalid_format_message "bogus") = true /\
  (forall s,
     dict_contains famous_julia_sets (lower s) = false ->
     py_complex (replace " " "" (replace "i" "j" s)) = None ->
     exists msg,
       parse_julia_c (PyStr s) = Raise (ValueError msg) /\
       contains (replace " " "" (replace "i" "j" s)) msg = true /\
       contains "'0.3+0.5j'" msg = true /\
       contains "'classic'" msg = true) /\
  parse_julia_c (PyStr "julia") =
    Raise (ValueError (invalid_format_message "julja")) /\
  contains "julia" (invalid_format_message "julja") = false.
Proof.
  split.
  { intros s Hs. unfold parse_julia_c. rewrite Hs. reflexivity. }
  split; [reflexivity|].
  split.
  { transitivity
      (Ok (A := pycomplex)
          (PyComplexValue (Finite (IZR 3 * powerRZ 10 (-1)))
                          (Finite (IZR 5 * powerRZ 10 (-1))))).
    - reflexivity.
    - rewrite decimal_3_10, decimal_5_10. reflexivity. }
  split; [reflexivity|].
  destruct (invalid_format_message_contents "bogus") as (Hshown & Hlit & Hname).
  split; [exact Hshown|]. split; [exact Hlit|]. split; [exact Hname|].
  split.
  { intros s Hpreset Hliteral. eexists.
    split; [apply parse_julia_c_invalid; assumption|].
    apply invalid_format_message_contents. }
  split; reflexivity.
Qed.

(** C10. The constant parser is idempotent: when it succeeds on an
    input, it returns the same complex number on its own result, a
    complex input being returned unchanged. *)
Theorem parse_julia_c_idempotent (c_input : py_value) (c : pycomplex)
    (Hok : parse_julia_c c_input = Ok c) :
  parse_julia_c (PyComplex c) = Ok c /\
  parse_julia_c (PyComplex c) = parse_julia_c c_input.
Proof.
  split; [reflexivity|]. rewrite Hok. reflexivity.
Qed.

Lemma parse_julia_c_idempotent_witness :
  parse_julia_c (PyStr "dragon") = Ok (const (-0.8) 0.156) /\
  parse_julia_c (PyComplex (const (-0.8) 0.156)) = Ok (const (-0.8) 0.156).
Proof.
  assert (H : parse_julia_c (PyStr "dragon") = Ok (const (-0.8) 0.156))
    by reflexivity.
  split; [exact H|].
  apply (parse_julia_c_idempotent (PyStr "dragon") (const (-0.8) 0.156) H).
Defined.

(** ** Runs of the definitions on concrete inputs *)

(** Decides [escaped] on a concrete orbit point. *)
Ltac orbit_point :=
  rewrite escaped_iff; unfold norm2, Cadd, Cmul; simpl; lra.

(** [c = 1]: the orbit is 0, 1, 2, 5; the point 2 is on the circle of
    radius 2 and passes the strict test, 5 fails it at index 3. *)
Example mandelbrot_point_one : mandelbrot_point (Complex 1 0) 10 = 3.
Proof.
  rewrite mandelbrot_point_julia. apply julia_point_escapes_at.
  - lia.
  - change (Z.to_nat 3) with 3%nat. simpl orbit. orbit_point.
  - intros j Hj.
    assert (Hcases : j = 0 \/ j = 1 \/ j = 2) by lia.
    destruct Hcases as [ -> | [ -> | -> ] ].
    + change (Z.to_nat 0) with 0%nat. simpl orbit. orbit_point.
    + change (Z.to_nat 1) with 1%nat. simpl orbit. orbit_point.
    + change (Z.to_nat 2) with 2%nat. simpl orbit. orbit_point.
Qed.

(** The literals of the docstring of [parse_julia_c]. *)
Example parse_julia_c_docstring :
  parse_julia_c (PyStr "-0.7-0.27i") = Ok (const (-0.7) (-0.27)) /\
  parse_julia_c (PyStr "dragon") = Ok (const (-0.8) 0.156) /\
  parse_julia_c (PyTuple [Finite 0.3; Finite 0.5]) = Ok (const 0.3 0.5) /\
  parse_julia_c (PyTuple [Finite 0.3]) =
    Raise (ValueError "Tipo de entrada no soportado para c: <class 'tuple'>").
Proof.
  split; [|split; [|split]]; try reflexivity.
  transitivity
    (Ok (A := pycomplex)
        (PyComplexValue (Finite (IZR (-7) * powerRZ 10 (-1)))
                        (Finite (IZR (-27) * powerRZ 10 (-2))))).
  - reflexivity.
  - unfold const. do 3 f_equal; simpl; lra.
Qed.

(** Strings that [complex] accepts or rejects. *)
Example parse_complex_literal_runs :
  parse_complex_literal "0.3+0.5j" = Some (LitDec 3 (-1), LitDec 5 (-1)) /\
  parse_complex_literal "1e-3j" = Some (LitDec 0 0, LitDec 1 (-3)) /\
  parse_complex_literal "(1_000-j)" = Some (LitDec 1000 0, LitDec (-1) 0) /\
  parse_complex_literal "nan" = Some (LitNan, LitDec 0 0) /\
  parse_complex_literal "0.3+0.5" = None /\
  parse_complex_literal "1e" = None /\
  parse_complex_literal "bogus" = None.
Proof. repeat split; reflexivity. Qed.

(** * Further properties of the code *)

(** ** The kernels: the bound, symmetries, bounded and escaping orbits *)

(** The result for a bound [n] is the result for a larger bound [m],
    cut at [n]. *)
Lemma first_escape_cut (z0 c : complex) (n m r : Z) :
  0 <= n <= m -> first_escape z0 c m r -> first_escape z0 c n (Z.min n r).
Proof.
  intros Hnm [(Hr & Hesc & Hmin)|(-> & Hnone)].
  - destruct (Z_lt_le_dec r n) as [Hlt|Hge].
    + rewrite Z.min_r by lia. left.
      split; [lia|]. split; [exact Hesc | exact Hmin].
    + rewrite Z.min_l by lia. right. split; [reflexivity|].
      intros j Hj. apply Hmin. lia.
  - rewrite Z.min_l by lia. right. split; [reflexivity|].
    intros j Hj. apply Hnone. lia.
Qed.

(** Raising the iteration bound never changes a pixel that had escaped:
    for [0 <= n <= m], the result for the bound [n] is the smaller of
    [n] and the result for the bound [m], for both kernels. *)
Theorem kernel_result_cut_by_bound (z0 c : complex) (n m : Z)
    (Hnm : 0 <= n <= m) :
  julia_point z0 c n = Z.min n (julia_point z0 c m) /\
  mandelbrot_point c n = Z.min n (mandelbrot_point c m) /\
  (julia_point z0 c n < n -> julia_point z0 c m = julia_point z0 c n).
Proof.
  assert (Hcut : forall z, julia_point z c n = Z.min n (julia_point z c m)).
  { intros z. apply (first_escape_unique z c n).
    - apply julia_point_first_escape.
    - apply (first_escape_cut z c n m _ Hnm). apply julia_point_first_escape. }
  split; [apply Hcut|]. split.
  - rewrite !mandelbrot_point_julia. apply Hcut.
  - intros Hlt. rewrite (Hcut z0) in *. lia.
Qed.

Lemma kernel_result_cut_by_bound_witness :
  julia_point (Complex 1 1) (Complex 0 1) 50 =
  Z.min 50 (julia_point (Complex 1 1) (Complex 0 1) 200).
Proof.
  apply (kernel_result_cut_by_bound (Complex 1 1) (Complex 0 1) 50 200). lia.
Defined.

(** Two starts whose orbits escape at the same indices give the same
    result. *)
Lemma julia_point_same_escapes (a ca b cb : complex) (max_iter : Z) :
  (forall n, escaped (orbit a ca n) <-> escaped (orbit b cb n)) ->
  julia_point a ca max_iter = julia_point b cb max_iter.
Proof.
  intros Hsame. apply (first_escape_unique b cb max_iter).
  - destruct (julia_point_first_escape a ca max_iter)
      as [(Hr & Hesc & Hmin)|(Heq & Hnone)].
    + left. split; [exact Hr|]. split; [apply Hsame; exact Hesc|].
      intros j Hj Hb. apply (Hmin j Hj). apply Hsame. exact Hb.
    + right. split; [exact Heq|].
      intros j Hj Hb. apply (Hnone j Hj). apply Hsame. exact Hb.
  - apply julia_point_first_escape.
Qed.

Lemma norm2_conj (z : complex) : norm2 (Cconj z) = norm2 z.
Proof. unfold norm2, Cconj; simpl. ring. Qed.

Lemma norm2_opp (z : complex) : norm2 (Copp z) = norm2 z.
Proof. unfold norm2, Copp; simpl. ring. Qed.

Lemma orbit_conj (z0 c : complex) (n : nat) :
  orbit (Cconj z0) (Cconj c) n = Cconj (orbit z0 c n).
Proof.
  induction n as [|n IH]; simpl; [reflexivity|].
  rewrite IH. unfold Cconj, Cadd, Cmul; simpl. f_equal; ring.
Qed.

Lemma orbit_opp (z0 c : complex) (n : nat) :
  orbit (Copp z0) c (S n) = orbit z0 c (S n).
Proof.
  induction n as [|n IH].
  - simpl. unfold Copp, Cadd, Cmul; simpl. f_equal; ring.
  - change (orbit (Copp z0) c (S (S n)))
      with (orbit (Copp z0) c (S n) * orbit (Copp z0) c (S n) + c)%C.
    rewrite IH. reflexivity.
Qed.

(** The Mandelbrot set is symmetric about the real axis and a Julia set
    about the origin: the Mandelbrot kernel returns the same count at
    [c] and at its conjugate, the Julia kernel the same count at [z] and
    at [-z], and at conjugate starts for conjugate constants. *)
Theorem kernel_symmetries (z c : complex) (max_iter : Z) :
  mandelbrot_point (Cconj c) max_iter = mandelbrot_point c max_iter /\
  julia_point (Copp z) c max_iter = julia_point z c max_iter /\
  julia_point (Cconj z) (Cconj c) max_iter = julia_point z c max_iter.
Proof.
  assert (Hconj : forall a, julia_point (Cconj a) (Cconj c) max_iter =
                            julia_point a c max_iter).
  { intros a. apply julia_point_same_escapes. intros n.
    rewrite orbit_conj, !escaped_iff, norm2_conj. reflexivity. }
  split; [|split].
  - rewrite !mandelbrot_point_julia.
    replace (Complex 0 0) with (Cconj (Complex 0 0)) at 1
      by (unfold Cconj; simpl; f_equal; lra).
    apply Hconj.
  - apply julia_point_same_escapes. intros [|n].
    + simpl. rewrite !escaped_iff, norm2_opp. reflexivity.
    + rewrite orbit_opp. reflexivity.
  - apply Hconj.
Qed.

Lemma Cabs_mul (a b : complex) : Cabs (a * b)%C = (Cabs a * Cabs b)%R.
Proof.
  apply Cabs_eq_iff.
  - apply Rmult_le_pos; apply Cabs_nonneg.
  - pose proof (Cabs_sqr a) as Ha. pose proof (Cabs_sqr b) as Hb.
    transitivity (norm2 a * norm2 b)%R.
    + unfold norm2, Cmul; simpl. ring.
    + rewrite <- Ha, <- Hb. ring.
Qed.

(** The triangle inequality of the modulus. *)
Lemma Cabs_triangle (a b : complex) : (Cabs (a + b)%C <= Cabs a + Cabs b)%R.
Proof.
  pose proof (Cabs_nonneg a) as Ha. pose proof (Cabs_nonneg b) as Hb.
  apply Cabs_le_iff; [lra|].
  pose proof (Cabs_sqr a) as Sa. pose proof (Cabs_sqr b) as Sb.
  pose proof (sqrt_cauchy (re a) (im a) (re b) (im b)) as Hcs.
  unfold Rsqr in Hcs.
  change (sqrt (re a * re a + im a * im a)) with (Cabs a) in Hcs.
  change (sqrt (re b * re b + im b * im b)) with (Cabs b) in Hcs.
  unfold norm2 in *. unfold Cadd; simpl. nra.
Qed.

(** A Mandelbrot orbit for [|c| <= 1/4] stays in the disk of radius
    1/2. *)
Lemma orbit_small_constant (c : complex) (n : nat) :
  (Cabs c <= 1 / 4)%R -> (Cabs (orbit (Complex 0 0) c n) <= 1 / 2)%R.
Proof.
  intros Hc. induction n as [|n IH].
  - simpl. rewrite Cabs_real; lra.
  - simpl orbit.
    pose proof (Cabs_triangle (orbit (Complex 0 0) c n * orbit (Complex 0 0) c n) c)
      as Htri.
    rewrite Cabs_mul in Htri.
    pose proof (Cabs_nonneg (orbit (Complex 0 0) c n)) as Hpos.
    nra.
Qed.

(** Every point of the closed disk of radius 1/4 around the origin is
    reported as a member of the Mandelbrot set: for [|c| <= 1/4] the
    Mandelbrot kernel returns [max_iter], whatever the bound. *)
Theorem mandelbrot_point_quarter_disk (c : complex) (max_iter : Z)
    (Hc : (Cabs c <= 1 / 4)%R) :
  mandelbrot_point c max_iter = max_iter.
Proof.
  rewrite mandelbrot_point_julia. apply julia_point_no_escape.
  intros n Hesc. unfold escaped in Hesc.
  pose proof (orbit_small_constant c n Hc). lra.
Qed.

Lemma mandelbrot_point_quarter_disk_witness :
  mandelbrot_point (Complex 0.25 0) 1000 = 1000.
Proof.
  apply (mandelbrot_point_quarter_disk (Complex 0.25 0) 1000).
  rewrite Cabs_real; lra.
Defined.





(** ** The grid generators: the sampled points *)








(** ** The viewport mapper: failures, inverted bounds, nesting *)

(** The source writes the base extent as a float literal. *)
Lemma four_literal : 4.0%R = 4%R.
Proof. lra. Qed.

Lemma calculate_bounds_nonzero (x_center y_center zoom : R) (width height : Z) :
  height <> 0 -> zoom <> 0%R ->
  MandelbrotGenerator.calculate_bounds x_center y_center zoom width height =
  Ok (Bounds (x_center - 4.0 / zoom * (IZR width / IZR height) / 2)
             (x_center + 4.0 / zoom * (IZR width / IZR height) / 2)
             (y_center - 4.0 / zoom / 2)
             (y_center + 4.0 / zoom / 2)).
Proof.
  intros Hh Hz. unfold MandelbrotGenerator.calculate_bounds.
  rewrite true_div_ok by (apply not_0_IZR; exact Hh). simpl.
  rewrite true_div_ok by exact Hz. reflexivity.
Qed.





(** ** The extent of the saved image *)



(** ** The generators: from the parameters to the grid *)

(** The sample points of the grid over the bounds of the view. *)
Lemma view_point_of_bounds (p : params) (row col : Z) :
  0 < width p -> 0 < height p -> zoom p <> 0%R ->
  Complex
    (x_center p - 4.0 / zoom p * (IZR (width p) / IZR (height p)) / 2 +
     IZR col *
     ((x_center p + 4.0 / zoom p * (IZR (width p) / IZR (height p)) / 2 -
       (x_center p - 4.0 / zoom p * (IZR (width p) / IZR (height p)) / 2)) /
      IZR (width p)))
    (y_center p - 4.0 / zoom p / 2 +
     IZR row *
     ((y_center p + 4.0 / zoom p / 2 - (y_center p - 4.0 / zoom p / 2)) /
      IZR (height p)))
  = view_point p row col.
Proof.
  intros Hw Hh Hz.
  pose proof (IZR_pos _ Hw). pose proof (IZR_pos _ Hh).
  unfold view_point. rewrite !four_literal. f_equal; field; lra.
Qed.

Lemma throughput_ok (verbose : bool) (elapsed : R) (pixels : Z) :
  clock_ok verbose elapsed ->
  exists v,
    (if verbose then true_div (IZR pixels) elapsed else Ok 0%R) = Ok v.
Proof.
  intros [->|Hne]; [eexists; reflexivity|].
  destruct verbose; [|eexists; reflexivity].
  rewrite true_div_ok by exact Hne. eexists; reflexivity.
Qed.





(** ** The Julia generator *)

(** [JuliaGenerator.generate] resolves the constant before anything
    else: an input that [parse_julia_c] rejects makes [generate] raise
    the same exception whatever the other arguments are (a zero zoom or
    a zero height included). *)
Theorem julia_generate_rejects_constant (julia_c : py_value) (e : exception)
    (w h n : option Z) (xc yc z : option R) (cm : option string)
    (verbose : bool) (elapsed : R)
    (Hbad : parse_julia_c julia_c = Raise e) :
  JuliaGenerator.generate (Some julia_c) w h n xc yc z cm verbose elapsed =
  Some (Raise e).
Proof.
  unfold JuliaGenerator.generate. simpl. rewrite Hbad. reflexivity.
Qed.

Lemma julia_generate_rejects_constant_witness :
  JuliaGenerator.generate (Some (PyStr "bogus")) None (Some 0) None None None
    (Some 0%R) None true 0 =
  Some (Raise (ValueError (invalid_format_message "bogus"))).
Proof.
  apply (julia_generate_rejects_constant (PyStr "bogus")). reflexivity.
Defined.

(** What [JuliaGenerator.generate] returns for a constant with finite
    parts, positive dimensions and a non-zero zoom. *)
Lemma julia_generate_cells (julia_c : option py_value) (c_real c_imag : R)
    (w h n : option Z) (xc yc z : option R) (cm : option string)
    (verbose : bool) (elapsed : R) :
  let p := apply_overrides JuliaGenerator.default_params w h n xc yc z cm in
  parse_julia_c (override julia_c (PyStr "classic")) = Ok (const c_real c_imag) ->
  0 < width p -> 0 < height p -> zoom p <> 0%R ->
  clock_ok verbose elapsed ->
  exists g,
    JuliaGenerator.generate julia_c w h n xc yc z cm verbose elapsed =
      Some (Ok (g, JuliaParams p (const c_real c_imag))) /\
    has_shape g (height p) (width p) /\
    forall row col, 0 <= row < height p -> 0 <= col < width p ->
      getitem g row col =
      Some (int32 (julia_point (view_point p row col)
                     (Complex c_real c_imag) (max_iter p))).
Proof.
  intros p Hc Hpw Hph Hpz Hclock.
  unfold JuliaGenerator.generate. rewrite Hc. fold p.
  destruct p as [pw ph pn pxc pyc pz pcm] eqn:Hp. simpl in Hpw, Hph, Hpz.
  change (JuliaGenerator.calculate_bounds pxc pyc pz pw ph)
    with (MandelbrotGenerator.calculate_bounds pxc pyc pz pw ph).
  rewrite calculate_bounds_nonzero by (try lia; exact Hpz).
  unfold finite_parts, const. simpl.
  destruct (julia_set_cells pw ph
              (pxc - 4.0 / pz * (IZR pw / IZR ph) / 2)
              (pxc + 4.0 / pz * (IZR pw / IZR ph) / 2)
              (pyc - 4.0 / pz / 2) (pyc + 4.0 / pz / 2)
              c_real c_imag pn Hpw Hph)
    as (g & Hg & Hshape & Hcells).
  rewrite Hg. simpl.
  destruct (throughput_ok verbose elapsed (pw * ph) Hclock) as [v ->]. simpl.
  exists g. split; [reflexivity|]. split; [exact Hshape|].
  intros row col Hr Hcol. rewrite (Hcells row col Hr Hcol).
  pose proof (view_point_of_bounds (Params pw ph pn pxc pyc pz pcm) row col
                Hpw Hph Hpz) as Hpoint.
  simpl in Hpoint. rewrite Hpoint. reflexivity.
Qed.



(** ** The constant parser: the presets and the other input types *)

(** Every name of [famous_julia_sets] resolves to its constant, in any
    letter case: the names are in lower case and pairwise different, so
    that none hides another. *)
Theorem parse_julia_c_presets (name s : string) (value : pycomplex)
    (Hin : In (name, value) famous_julia_sets)
    (Hs : lower s = name) :
  parse_julia_c (PyStr s) = Ok value /\
  lower name = name /\
  NoDup (map fst famous_julia_sets).
Proof.
  split; [|split].
  - unfold parse_julia_c. rewrite Hs. unfold famous_julia_sets in Hin.
    simpl in Hin.
    repeat (destruct Hin as [Heq|Hin];
            [injection Heq as <- <-; reflexivity|]).
    contradiction.
  - unfold famous_julia_sets in Hin. simpl in Hin.
    repeat (destruct Hin as [Heq|Hin];
            [injection Heq as <- _; reflexivity|]).
    contradiction.
  - unfold famous_julia_sets. simpl.
    repeat (constructor; [simpl; intros H;
                          repeat (destruct H as [H|H]; [discriminate|]);
                          exact H|]).
    constructor.
Qed.

Lemma parse_julia_c_presets_witness :
  parse_julia_c (PyStr "SeaHorse") = Ok (const (-0.75) 0.11).
Proof.
  apply (parse_julia_c_presets "seahorse" "SeaHorse" (const (-0.75) 0.11)).
  - unfold famous_julia_sets. simpl. do 9 right. left. reflexivity.
  - reflexivity.
Defined.

(** The inputs that are not strings: a complex is returned as it is; a
    tuple or a list resolves exactly when it has two items, to the
    complex of these; with any other number of items, and for a value
    of any other class, the parser raises the [ValueError] that names
    the class of the input. *)
Theorem parse_julia_c_non_strings (items : list pyfloat) (cls : string) :
  (List.length items = 2%nat ->
     exists a b, items = [a; b] /\
       parse_julia_c (PyTuple items) = Ok (PyComplexValue a b) /\
       parse_julia_c (PyList items) = Ok (PyComplexValue a b)) /\
  (List.length items <> 2%nat ->
     parse_julia_c (PyTuple items) =
       Raise (ValueError
                "Tipo de entrada no soportado para c: <class 'tuple'>") /\
     parse_julia_c (PyList items) =
       Raise (ValueError
                "Tipo de entrada no soportado para c: <class 'list'>")) /\
  parse_julia_c (PyOther cls) =
    Raise (ValueError
             ("Tipo de entrada no soportado para c: <class '" ++ cls ++ "'>")).
Proof.
  split; [|split].
  - intros Hlen. destruct items as [|a [|b [|x rest]]]; try discriminate.
    exists a, b. repeat split; reflexivity.
  - intros Hlen. destruct items as [|a [|b [|x rest]]];
      try (split; reflexivity).
    contradiction Hlen. reflexivity.
  - reflexivity.
Qed.

(** ** The validation of the parameters *)

Import FractalConfig.


(** How [validate_parameters] rejects.  An entry [max_iter] above its
    limit gives the [ValueError] that shows the value and the limit; a
    width or a height above the resolution limit gives the [ValueError]
    that shows both dimensions and the limit.  When [max_iter] has no
    entry and the limit is negative, building the message fails and the
    exception is a [KeyError]. *)
Theorem validate_parameters_rejections (config : settings) (params : dict Z) :
  let max_iter_limit := override (max_iterations_limit config) 1000 in
  let max_res_limit := override (max_resolution_limit config) 8192 in
  let w := dict_get_default params "width" 0 in
  let h := dict_get_default params "height" 0 in
  (forall n, dict_get params "max_iter" = Some n -> max_iter_limit < n ->
     validate_parameters config params =
     Raise (ValueError
              ("max_iter (" ++ str_of_int n ++ ") excede el límite de " ++
               str_of_int max_iter_limit))) /\
  (dict_get params "max_iter" = None -> max_iter_limit < 0 ->
     validate_parameters config params = Raise (KeyError "max_iter")) /\
  (dict_get_default params "max_iter" 0 <= max_iter_limit ->
   max_res_limit < w \/ max_res_limit < h ->
     validate_parameters config params =
     Raise (ValueError
              ("Resolución (" ++ str_of_int w ++ "x" ++ str_of_int h ++
               ") excede el límite de " ++ str_of_int max_res_limit ++ "px"))).
Proof.
  intros max_iter_limit max_res_limit w h.
  split; [|split].
  - intros n Hget Hgt. unfold validate_parameters, dict_get_default, dict_getitem.
    rewrite Hget. fold max_iter_limit.
    destruct (Z.gtb_spec n max_iter_limit); [reflexivity | lia].
  - intros Hget Hneg. unfold validate_parameters, dict_get_default, dict_getitem.
    rewrite Hget. fold max_iter_limit.
    destruct (Z.gtb_spec 0 max_iter_limit); [reflexivity | lia].
  - intros Hn Hbig. unfold validate_parameters.
    fold max_iter_limit max_res_limit w h.
    destruct (Z.gtb_spec (dict_get_default params "max_iter" 0) max_iter_limit);
      [lia|].
    destruct (Z.gtb_spec w max_res_limit); [reflexivity|].
    destruct (Z.gtb_spec h max_res_limit); [reflexivity | lia].
Qed.



(** ** The constant parser: integer literals *)































(** ** The two kernels, one from the other *)

Lemma orbit_origin_shift (c : complex) (n : nat) :
  orbit (Complex 0 0) c (S n) = orbit c c n.
Proof.
  induction n as [|n IH].
  - apply orbit_origin_1.
  - change (orbit (Complex 0 0) c (S (S n)))
      with (orbit (Complex 0 0) c (S n) * orbit (Complex 0 0) c (S n) + c)%C.
    rewrite IH. reflexivity.
Qed.

(** The Mandelbrot kernel is the Julia kernel one iteration later: for
    [max_iter >= 1], its result at [c] is one more than the result of
    the Julia kernel started at [c] with the constant [c] and the bound
    [max_iter - 1]. *)
Theorem mandelbrot_point_is_shifted_julia (c : complex) (max_iter : Z)
    (Hpos : 1 <= max_iter) :
  mandelbrot_point c max_iter = 1 + julia_point c c (max_iter - 1).
Proof.
  rewrite mandelbrot_point_julia.
  apply (first_escape_unique (Complex 0 0) c max_iter).
  - apply julia_point_first_escape.
  - assert (Hshift : forall j, 1 <= j ->
              orbit (Complex 0 0) c (Z.to_nat j) = orbit c c (Z.to_nat (j - 1))).
    { intros j Hj. replace (Z.to_nat j) with (S (Z.to_nat (j - 1))) by lia.
      apply orbit_origin_shift. }
    destruct (julia_point_first_escape c c (max_iter - 1))
      as [(Hr & Hesc & Hmin)|(Heq & Hnone)].
    + left. split; [lia|]. split.
      * rewrite Hshift by lia.
        replace (1 + julia_point c c (max_iter - 1) - 1)
          with (julia_point c c (max_iter - 1)) by lia.
        exact Hesc.
      * intros j Hj. destruct (Z.eq_dec j 0) as [->|Hne].
        -- simpl. apply origin_not_escaped.
        -- rewrite Hshift by lia. apply Hmin. lia.
    + right. split; [lia|].
      intros j Hj. destruct (Z.eq_dec j 0) as [->|Hne].
      * simpl. apply origin_not_escaped.
      * rewrite Hshift by lia. apply Hnone. lia.
Qed.

Lemma mandelbrot_point_is_shifted_julia_witness :
  mandelbrot_point (Complex 0 1) 100 =
  1 + julia_point (Complex 0 1) (Complex 0 1) (100 - 1).
Proof.
  apply (mandelbrot_point_is_shifted_julia (Complex 0 1) 100). lia.
Defined.

(** ** The gallery of presets *)

(** [generate_preset_gallery] calls [generate] once for every entry of
    [famous_julia_sets], with the constant of the entry, 800 by 600
    pixels, 150 iterations and no output: each of these calls succeeds
    and returns a 600 by 800 grid whose every cell is in [[0, 150]]. *)
Theorem preset_gallery_generation (name : string) (c : pycomplex)
    (elapsed : R)
    (Hin : In (name, c) famous_julia_sets) :
  exists g p,
    JuliaGenerator.generate (Some (PyComplex c)) (Some 800) (Some 600)
      (Some 150) None None None None false elapsed =
      Some (Ok (g, JuliaParams p c)) /\
    has_shape g 600 800 /\
    forall row col v, getitem g row col = Some v -> 0 <= v <= 150.
Proof.
  assert (Hfinite : exists a b, c = const a b).
  { unfold famous_julia_sets in Hin. simpl in Hin.
    repeat (destruct Hin as [Heq|Hin];
            [injection Heq as _ <-; eexists; eexists; reflexivity|]).
    contradiction. }
  destruct Hfinite as (a & b & ->).
  destruct (julia_generate_cells (Some (PyComplex (const a b))) a b
              (Some 800) (Some 600) (Some 150) None None None None
              false elapsed)
    as (g & Hg & Hshape & Hcells).
  - reflexivity.
  - simpl. lia.
  - simpl. lia.
  - simpl. lra.
  - left. reflexivity.
  - exists g. eexists. split; [exact Hg|]. split; [exact Hshape|].
    intros row col v Hget.
    destruct (getitem_Some_inside g _ _ row col v Hshape Hget) as [Hr Hc].
    rewrite (Hcells row col Hr Hc) in Hget. injection Hget as <-.
    simpl.
    match goal with
    | |- 0 <= int32 (julia_point ?pt ?k 150) <= _ =>
        pose proof (julia_point_range pt k 150 ltac:(lia)) as Hrange
    end.
    rewrite int32_small; lia.
Qed.

Lemma preset_gallery_generation_witness :
  exists g p,
    JuliaGenerator.generate (Some (PyComplex (const (-0.8) 0.156)))
      (Some 800) (Some 600) (Some 150) None None None None false 0 =
      Some (Ok (g, JuliaParams p (const (-0.8) 0.156))) /\
    has_shape g 600 800.
Proof.
  destruct (preset_gallery_generation "dragon" (const (-0.8) 0.156) 0)
    as (g & p & Hg & Hshape & _).
  - unfold famous_julia_sets. simpl. right. left. reflexivity.
  - exists g, p. split; [exact Hg | exact Hshape].
Defined.
